(** * pymodbus3: the datastore contexts

    A shallow embedding of [pymodbus3/datastore/context.py]:
    [ModbusSlaveContext] (four data banks addressed through a function
    code and a zero-based request address) and [ModbusServerContext]
    (the unit-id to slave-context dictionary, in single or multi mode).

    Python integers are [Z], dictionaries are [gmap]s, a method that
    mutates [self] returns the new object, and a method that may raise
    returns a [result]. *)

From stdpp Require Import base gmap list strings.
From Stdlib Require Import ZArith Lia.

Open Scope Z_scope.

(** * Exceptions and results *)

(** The exceptions that can leave the code of this file:
    [ParameterException] is raised by the source itself, [KeyError] by a
    dictionary access on an absent key ([d[k]], [del d[k]]), and
    and [TypeError] and [AttributeError] by an operation its operand does
    not support. *)
Inductive exn : Type :=
| ParameterException (msg : string)
| KeyError
| TypeError
| AttributeError.

Inductive result (A : Type) : Type :=
| Ok (a : A)
| Raise (e : exn).

Arguments Ok {A} a.
Arguments Raise {A} e.

#[global] Instance result_bind : MBind result := λ A B k r,
  match r with
  | Ok a => k a
  | Raise e => Raise e
  end.

Definition raises {A : Type} (r : result A) : Prop :=
  match r with
  | Ok _ => False
  | Raise _ => True
  end.

(** Python's [d[k]] on a dictionary. *)
Definition getitem {K : Type} `{Countable K} {A : Type}
    (d : gmap K A) (k : K) : result A :=
  match d !! k with
  | Some a => Ok a
  | None => Raise KeyError
  end.

(** * The bank interface *)

(** The four operations [ModbusSlaveContext] calls on a bank, and
    [create], the bank that [ModbusSequentialDataBlock.create()] builds
    when the caller supplies none. *)
Class ModbusDataBlock (V B : Type) : Type := {
  create : B;
  blk_reset : B → B;
  blk_validate : B → Z → Z → bool;
  blk_get_values : B → Z → Z → list V;
  blk_set_values : B → Z → list V → B;
}.

(** What the slave context relies on from a bank: it has a populated
    range of offsets, [validate] reports whether a whole span lies in
    it, and a span written inside it is read back. *)
Class ModbusDataBlockLaws (V B : Type) `{!ModbusDataBlock V B} : Type := {
  populated : B → Z → Prop;
  validate_populated (b : B) (a n : Z) :
    blk_validate b a n = true ↔ ∀ o, a ≤ o < a + n → populated b o;
  get_set_values (b : B) (a : Z) (v : list V) :
    (∀ o, a ≤ o < a + Z.of_nat (length v) → populated b o) →
    blk_get_values (blk_set_values b a v) a (Z.of_nat (length v)) = v;
}.

(** * The sequential data block *)

Module ModbusSequentialDataBlock.
Section Block.
Context {V : Type}.

(** Modelled from the spec: [pymodbus3/datastore/store.py] is missing.
    A bank is an ordered container addressed by an integer offset: the
    values are stored from offset [address] on, so the populated range
    is [address, address + len(values)); [fill] is the default value
    that [reset] restores. *)
Record t : Type := mk {
  address : Z;
  values : list V;
  fill : V;
}.

Definition in_range (b : t) (o : Z) : bool :=
  (address b <=? o) && (o <? address b + Z.of_nat (length (values b))).

(** Modelled from the spec: a fully populated bank with the default
    starting address 0, the default fill value and the default size. *)
Definition create (default_fill : V) (default_size : nat) : t :=
  {| address := 0; values := replicate default_size default_fill;
     fill := default_fill |}.

(** Modelled from the spec: [reset()] restores the default contents. *)
Definition reset (b : t) : t :=
  {| address := address b;
     values := replicate (length (values b)) (fill b);
     fill := fill b |}.

(** Modelled from the spec: [validate(address, count)] is true iff
    every offset of [address, address + count) is populated. *)
Definition validate (b : t) (a n : Z) : bool :=
  forallb (in_range b) (seqZ a n).

Definition get_value (b : t) (o : Z) : option V :=
  if in_range b o then values b !! Z.to_nat (o - address b) else None.

Definition set_value (b : t) (o : Z) (v : V) : t :=
  if in_range b o then
    {| address := address b;
       values := <[Z.to_nat (o - address b) := v]> (values b);
       fill := fill b |}
  else b.

(** Modelled from the spec: [get_values(address, count)] returns the
    values held at the offsets [address, address + count). *)
Definition get_values (b : t) (a n : Z) : list V :=
  omap (get_value b) (seqZ a n).

(** Modelled from the spec: [set_values(address, values)] stores the
    values at the offsets from [address] on. *)
Fixpoint set_values (b : t) (a : Z) (vs : list V) : t :=
  match vs with
  | [] => b
  | v :: vs => set_values (set_value b a v) (a + 1) vs
  end.

End Block.
Arguments t V : clear implicits.
End ModbusSequentialDataBlock.

Definition sequential_data_block {V : Type}
    (default_fill : V) (default_size : nat) :
    ModbusDataBlock V (ModbusSequentialDataBlock.t V) := {|
  create := ModbusSequentialDataBlock.create default_fill default_size;
  blk_reset := ModbusSequentialDataBlock.reset;
  blk_validate := ModbusSequentialDataBlock.validate;
  blk_get_values := ModbusSequentialDataBlock.get_values;
  blk_set_values := ModbusSequentialDataBlock.set_values;
|}.

(** * ModbusSlaveContext *)

(** Modelled from the spec: [pymodbus3/interfaces.py] is missing. The
    function-code decoder is a total function into the four object
    spaces; [space_key] gives the letter under which [__init__] files
    the bank of a space. *)
Inductive space : Type :=
| DiscreteInput
| Coil
| InputRegister
| HoldingRegister.

Definition space_key (s : space) : string :=
  match s with
  | DiscreteInput => "d"
  | Coil => "c"
  | InputRegister => "i"
  | HoldingRegister => "h"
  end.

Module ModbusSlaveContext.
Section Slave.
Context {V B : Type} `{!ModbusDataBlock V B}.

(** [IModbusSlaveContext.decode], taken as a parameter. *)
Variable decode : Z → space.

(** [self.store]: the dictionary of banks, by letter. The banks are held
    by value: a bank object passed under several keywords is one shared
    object in Python, and a copy per key here. The two agree on the bank
    that [decode fx] selects, the only one an operation reads or
    writes. *)
Record t : Type := mk { store : gmap string B }.

(** [kwargs.get(k, ModbusSequentialDataBlock.create())] for each of the
    four keyword arguments ['di'], ['co'], ['ir'], ['hr']. *)
Definition __init__ (di co ir hr : option B) : t :=
  let store := (∅ : gmap string B) in
  let store := <["d" := default create di]> store in
  let store := <["c" := default create co]> store in
  let store := <["i" := default create ir]> store in
  let store := <["h" := default create hr]> store in
  {| store := store |}.

Definition reset (self : t) : t :=
  {| store := blk_reset <$> store self |}.

Definition validate (self : t) (fx address count : Z) : result bool :=
  let address := address + 1 in
  b ← getitem (store self) (space_key (decode fx));
  Ok (blk_validate b address count).

Definition get_values (self : t) (fx address count : Z) : result (list V) :=
  let address := address + 1 in
  b ← getitem (store self) (space_key (decode fx));
  Ok (blk_get_values b address count).

(** The bank is mutated in place: the dictionary keeps its keys and the
    selected bank takes its new contents. *)
Definition set_values (self : t) (fx address : Z) (values : list V) : result t :=
  let address := address + 1 in
  b ← getitem (store self) (space_key (decode fx));
  Ok {| store := <[space_key (decode fx) := blk_set_values b address values]>
                   (store self) |}.

(** The state every constructed context is in: the four letters, and
    only they, are keys of [store]. *)
Definition well_formed (self : t) : Prop :=
  dom (store self) = ({["d"; "c"; "i"; "h"]} : gset string).

End Slave.
Arguments t B : clear implicits.
End ModbusSlaveContext.

(** * Python values held by a server context *)

(** What the constructor of [ModbusServerContext] may receive and what
    its dictionary may hold: [None], a slave context, or a dictionary
    from unit ids to such values. *)
#[warnings="-register-all"]
Inductive pyobj (C : Type) : Type :=
| PyNone
| PyContext (c : C)
| PyDict (d : gmap Z (pyobj C)).

Arguments PyNone {C}.
Arguments PyContext {C} c.
Arguments PyDict {C} d.

(** What [dict.items()] returns, and what [iter] makes of it. The view
    follows its dictionary; the iterator walks the pairs. *)
Inductive pyiterable (C : Type) : Type :=
| DictItems (d : gmap Z (pyobj C))
| DictItemIterator (pairs : list (Z * pyobj C)).

Arguments DictItems {C} d.
Arguments DictItemIterator {C} pairs.

Section PyObj.
Context {C : Type}.

(** Truth value: [None] and the empty dictionary are false; a slave
    context, an object with neither [__bool__] nor [__len__], is true. *)
Definition truthy (o : pyobj C) : bool :=
  match o with
  | PyNone => false
  | PyContext _ => true
  | PyDict d => negb (bool_decide (dom d = (∅ : gset Z)))
  end.

(** [a or b] *)
Definition py_or (a b : pyobj C) : pyobj C :=
  if truthy a then a else b.

(** [k in o] *)
Definition py_contains (o : pyobj C) (k : Z) : result bool :=
  match o with
  | PyDict d => Ok (bool_decide (is_Some (d !! k)))
  | _ => Raise TypeError
  end.

(** [o[k] = v] *)
Definition py_setitem (o : pyobj C) (k : Z) (v : pyobj C) : result (pyobj C) :=
  match o with
  | PyDict d => Ok (PyDict (<[k := v]> d))
  | _ => Raise TypeError
  end.

(** [del o[k]] *)
Definition py_delitem (o : pyobj C) (k : Z) : result (pyobj C) :=
  match o with
  | PyDict d =>
      match d !! k with
      | Some _ => Ok (PyDict (delete k d))
      | None => Raise KeyError
      end
  | _ => Raise TypeError
  end.

(** [o.get(k)] *)
Definition py_get (o : pyobj C) (k : Z) : result (pyobj C) :=
  match o with
  | PyDict d => Ok (default PyNone (d !! k))
  | _ => Raise AttributeError
  end.

(** [o.items()] *)
Definition py_items (o : pyobj C) : result (pyiterable C) :=
  match o with
  | PyDict d => Ok (DictItems d)
  | _ => Raise AttributeError
  end.

(** An iterator is an object with [__next__]. *)
Definition is_iterator (o : pyiterable C) : bool :=
  match o with
  | DictItems _ => false
  | DictItemIterator _ => true
  end.

(** [iter(o)] on a view or an iterator. *)
Definition py_iter (o : pyiterable C) : pyiterable C :=
  match o with
  | DictItems d => DictItemIterator (map_to_list d)
  | DictItemIterator pairs => DictItemIterator pairs
  end.

End PyObj.

(** * ModbusServerContext *)

Module ModbusServerContext.
Section Server.
Context {C : Type}.

(** [Defaults.UnitId]: [pymodbus3/constants.py] is missing, the default
    unit id is a parameter. *)
Variable UnitId : Z.

Record t : Type := mk {
  single : bool;
  __slaves : pyobj C;
}.

Definition __init__ (slaves : pyobj C) (single : bool) : t :=
  let __slaves := py_or slaves (PyDict ∅) in
  let __slaves := if single then PyDict {[UnitId := __slaves]} else __slaves in
  {| single := single; __slaves := __slaves |}.

Definition __iter__ (self : t) : result (pyiterable C) :=
  py_items (__slaves self).

Definition __contains__ (self : t) (slave : Z) : result bool :=
  py_contains (__slaves self) slave.

Definition __setitem__ (self : t) (slave : Z) (context : pyobj C) : result t :=
  let slave := if single self then UnitId else slave in
  if (0xf7 >=? slave) && (slave >=? 0x00) then
    d ← py_setitem (__slaves self) slave context;
    Ok {| single := single self; __slaves := d |}
  else Raise (ParameterException "slave index out of range").

Definition __delitem__ (self : t) (slave : Z) : result t :=
  if negb (single self) && ((0xf7 >=? slave) && (slave >=? 0x00)) then
    d ← py_delitem (__slaves self) slave;
    Ok {| single := single self; __slaves := d |}
  else Raise (ParameterException "slave index out of range").

Definition __getitem__ (self : t) (slave : Z) : result (pyobj C) :=
  let slave := if single self then UnitId else slave in
  found ← py_contains (__slaves self) slave;
  if found : bool then py_get (__slaves self) slave
  else Raise (ParameterException "slave does not exist, or is out of range").

(** [iter(self)], which a [for] loop over the context starts with: the
    interpreter calls [__iter__] and raises [TypeError] when the object
    it gets back is not an iterator. *)
Definition iter (self : t) : result (pyiterable C) :=
  it ← __iter__ self;
  if is_iterator it then Ok it else Raise TypeError.

(** The operations a caller performs on a context. *)
Inductive op : Type :=
| SetItem (slave : Z) (context : pyobj C)
| GetItem (slave : Z)
| DelItem (slave : Z)
| Contains (slave : Z)
| Iter.

(** The context after an operation: an operation that raises leaves it
    as it was, and the three reads assign nothing. *)
Definition step (self : t) (o : op) : t :=
  match o with
  | SetItem slave context =>
      match __setitem__ self slave context with
      | Ok self' => self'
      | Raise _ => self
      end
  | DelItem slave =>
      match __delitem__ self slave with
      | Ok self' => self'
      | Raise _ => self
      end
  | GetItem _ | Contains _ | Iter => self
  end.

Definition run (self : t) (ops : list op) : t :=
  foldl step self ops.

(** The state of a context in single mode: the dictionary is the one
    entry filed under the default unit id. *)
Definition single_entry (self : t) (e : pyobj C) : Prop :=
  single self = true ∧ __slaves self = PyDict {[UnitId := e]}.

End Server.
Arguments t C : clear implicits.
Arguments op C : clear implicits.
End ModbusServerContext.

(** * ModbusSlaveContext over shared bank objects *)

(** A bank is a Python object: the context holds references, and a bank
    passed under several keywords is one object reached under several
    letters. Objects live in a heap, a reference is a [positive], and a
    method that mutates a bank returns the new heap. A reference names
    an object of the heap; [h !!! l] reads it. *)
Module SharedBanks.
Section Shared.
Context {V B : Type} `{!ModbusDataBlock V B}.

Variable decode : Z → space.

#[local] Instance bank_inhabited : Inhabited B := populate create.

(** [self.store], by reference. *)
Record t : Type := mk { store : gmap string positive }.

(** A new object. *)
Definition alloc (h : gmap positive B) (b : B) : positive * gmap positive B :=
  let l := fresh (dom h) in (l, <[l := b]> h).

(** [kwargs.get(k, ModbusSequentialDataBlock.create())]: the default
    bank is built before [get] chooses between it and the argument. *)
Definition kwargs_get (h : gmap positive B) (arg : option positive) :
    positive * gmap positive B :=
  let '(l, h) := alloc h create in (default l arg, h).

Definition __init__ (h : gmap positive B) (di co ir hr : option positive) :
    t * gmap positive B :=
  let store := (∅ : gmap string positive) in
  let '(d, h) := kwargs_get h di in
  let store := <["d" := d]> store in
  let '(c, h) := kwargs_get h co in
  let store := <["c" := c]> store in
  let '(i, h) := kwargs_get h ir in
  let store := <["i" := i]> store in
  let '(r, h) := kwargs_get h hr in
  let store := <["h" := r]> store in
  ({| store := store |}, h).

(** [datastore.reset()] on one object. *)
Definition reset_bank (h : gmap positive B) (l : positive) : gmap positive B :=
  <[l := blk_reset (h !!! l)]> h.

(** [for datastore in self.store.values(): datastore.reset()]. Each call
    touches its own object, so the order of the values is immaterial. *)
Definition reset (h : gmap positive B) (self : t) : gmap positive B :=
  foldl reset_bank h (map_to_list (store self)).*2.

Definition validate (h : gmap positive B) (self : t) (fx address count : Z) :
    result bool :=
  let address := address + 1 in
  l ← getitem (store self) (space_key (decode fx));
  Ok (blk_validate (h !!! l) address count).

Definition get_values (h : gmap positive B) (self : t) (fx address count : Z) :
    result (list V) :=
  let address := address + 1 in
  l ← getitem (store self) (space_key (decode fx));
  Ok (blk_get_values (h !!! l) address count).

Definition set_values (h : gmap positive B) (self : t) (fx address : Z)
    (values : list V) : result (gmap positive B) :=
  let address := address + 1 in
  l ← getitem (store self) (space_key (decode fx));
  Ok (<[l := blk_set_values (h !!! l) address values]> h).

(** The keyword argument that fills the bank of a space. *)
Definition kwarg (di co ir hr : option positive) (s : space) : option positive :=
  match s with
  | DiscreteInput => di
  | Coil => co
  | InputRegister => ir
  | HoldingRegister => hr
  end.

(** How many letters of the store hold the object [l]. *)
Definition holders (self : t) (l : positive) : nat :=
  length (filter (λ l', l' = l) (map_to_list (store self)).*2).

(** The context by value: every letter with the contents of its bank. *)
Definition snapshot (h : gmap positive B) (self : t) : ModbusSlaveContext.t B :=
  {| ModbusSlaveContext.store := (λ l, h !!! l) <$> store self |}.

End Shared.
End SharedBanks.

(** * States and histories of a server context *)

(** A multi-mode context over the dictionary [d]. *)
Definition multi_context {C : Type} (d : gmap Z (pyobj C)) :
    ModbusServerContext.t C :=
  {| ModbusServerContext.single := false;
     ModbusServerContext.__slaves := PyDict d |}.

(** The context a single-mode server holds after a sequence of
    operations: the one of the last [__setitem__], or the entry it
    started with. *)
Definition last_context {C : Type} (e : pyobj C)
    (ops : list (ModbusServerContext.op C)) : pyobj C :=
  foldl (λ e o, match o with
                | ModbusServerContext.SetItem _ context => context
                | _ => e
                end) e ops.

(** * Sample instances *)

(** A decoder for the examples: the function codes of the Modbus
    application protocol, by the object space they address. *)
Definition example_decode (fx : Z) : space :=
  if fx =? 2 then DiscreteInput
  else if (fx =? 1) || (fx =? 5) || (fx =? 15) then Coil
  else if fx =? 4 then InputRegister
  else HoldingRegister.

(** Banks of eight registers, filled with 0. *)
#[global] Instance example_block : ModbusDataBlock Z (ModbusSequentialDataBlock.t Z) :=
  sequential_data_block 0 8%nat.

(** [ModbusSlaveContext()] over these banks. *)
Definition example_slave : ModbusSlaveContext.t (ModbusSequentialDataBlock.t Z) :=
  ModbusSlaveContext.__init__ None None None None.

(** * The sequential data block obeys the bank laws *)

Module SequentialBlockFacts.
Import ModbusSequentialDataBlock.
Section Facts.
Context {V : Type}.
Implicit Types (b : t V) (o a n : Z) (v : V) (vs : list V).

Lemma in_range_spec b o :
  in_range b o = true ↔
  address b ≤ o < address b + Z.of_nat (length (values b)).
Proof. unfold in_range. rewrite andb_true_iff, Z.leb_le, Z.ltb_lt. tauto. Qed.

Lemma validate_spec b a n :
  validate b a n = true ↔ ∀ o, a ≤ o < a + n → in_range b o = true.
Proof.
  unfold validate. rewrite forallb_forall. split.
  - intros Hall o Ho. apply Hall, list_elem_of_In, elem_of_seqZ, Ho.
  - intros Hall o Ho. apply Hall, elem_of_seqZ, list_elem_of_In, Ho.
Qed.

Lemma in_range_set_value b o v o' :
  in_range (set_value b o v) o' = in_range b o'.
Proof.
  unfold set_value. destruct (in_range b o); [|done].
  unfold in_range; simpl. by rewrite length_insert.
Qed.

Lemma get_value_set_value_eq b o v :
  in_range b o = true → get_value (set_value b o v) o = Some v.
Proof.
  intros Hin. unfold get_value. rewrite in_range_set_value, Hin.
  unfold set_value. rewrite Hin; simpl.
  apply in_range_spec in Hin. apply list_lookup_insert_eq. lia.
Qed.

Lemma get_value_set_value_ne b o v o' :
  o ≠ o' → get_value (set_value b o v) o' = get_value b o'.
Proof.
  intros Hne. unfold get_value. rewrite in_range_set_value.
  destruct (in_range b o') eqn:Hin'; [|done].
  unfold set_value. destruct (in_range b o) eqn:Hin; [simpl|done].
  apply in_range_spec in Hin, Hin'. apply list_lookup_insert_ne. lia.
Qed.

Lemma in_range_set_values vs : ∀ b a o,
  in_range (set_values b a vs) o = in_range b o.
Proof.
  induction vs as [|v vs IH]; intros b a o; simpl; [done|].
  by rewrite IH, in_range_set_value.
Qed.

(** Writing from [a] on leaves every offset below [a] as it was. *)
Lemma get_value_set_values_below vs : ∀ b a o,
  o < a → get_value (set_values b a vs) o = get_value b o.
Proof.
  induction vs as [|v vs IH]; intros b a o Ho; simpl; [done|].
  rewrite IH by lia. apply get_value_set_value_ne. lia.
Qed.

Lemma get_values_set_values vs : ∀ b a,
  (∀ o, a ≤ o < a + Z.of_nat (length vs) → in_range b o = true) →
  get_values (set_values b a vs) a (Z.of_nat (length vs)) = vs.
Proof.
  induction vs as [|v vs IH]; intros b a Hin; [done|].
  unfold get_values. rewrite seqZ_cons by (simpl; lia).
  replace (Z.pred (Z.of_nat (length (v :: vs)))) with (Z.of_nat (length vs))
    by (simpl; lia).
  cbn [omap list_omap set_values].
  rewrite get_value_set_values_below by lia.
  rewrite get_value_set_value_eq by (apply Hin; simpl; lia).
  f_equal. replace (Z.succ a) with (a + 1) by lia. apply IH.
  intros o Ho. rewrite in_range_set_value. apply Hin. simpl; lia.
Qed.

End Facts.
End SequentialBlockFacts.

Definition sequential_data_block_laws {V : Type}
    (default_fill : V) (default_size : nat) :
    @ModbusDataBlockLaws V (ModbusSequentialDataBlock.t V)
      (sequential_data_block default_fill default_size) :=
  @Build_ModbusDataBlockLaws V (ModbusSequentialDataBlock.t V)
    (sequential_data_block default_fill default_size)
    (λ b o, ModbusSequentialDataBlock.in_range b o = true)
    SequentialBlockFacts.validate_spec
    (λ b a v, SequentialBlockFacts.get_values_set_values v b a).

#[global] Instance example_laws :
    @ModbusDataBlockLaws Z (ModbusSequentialDataBlock.t Z) example_block :=
  sequential_data_block_laws 0 8%nat.

(** * ModbusSlaveContext: address shift and delegation *)

Module SlaveContextFacts.
Import ModbusSlaveContext.
Section Facts.
Context {V B : Type} `{!ModbusDataBlock V B} `{!ModbusDataBlockLaws V B}.
Variable decode : Z → space.
Implicit Types (self : t B) (fx a n : Z) (b : B) (v : list V).

Lemma space_key_in_keys (s : space) :
  space_key s ∈ ({["d"; "c"; "i"; "h"]} : gset string).
Proof. destruct s; set_solver. Qed.

Lemma well_formed_lookup self (s : space) :
  well_formed self → is_Some (store self !! space_key s).
Proof.
  unfold well_formed. intros Hdom. apply elem_of_dom.
  rewrite Hdom. apply space_key_in_keys.
Qed.

Lemma init_well_formed (di co ir hr : option B) :
  well_formed (__init__ di co ir hr).
Proof.
  unfold well_formed, __init__; simpl.
  rewrite !dom_insert_L, dom_empty_L. set_solver.
Qed.

Lemma reset_well_formed self : well_formed self → well_formed (reset self).
Proof. unfold well_formed, reset; simpl. by rewrite dom_fmap_L. Qed.

Lemma set_values_well_formed self fx a v self' :
  well_formed self → set_values decode self fx a v = Ok self' →
  well_formed self'.
Proof.
  unfold well_formed, set_values, getitem. intros Hdom.
  destruct (store self !! space_key (decode fx)) as [b|] eqn:Hb; [|done].
  intros [= <-]; simpl. rewrite dom_insert_L, Hdom.
  apply (subseteq_union_1_L (C := gset string)).
  apply singleton_subseteq_l, space_key_in_keys.
Qed.

Lemma validate_bank self fx a n b :
  store self !! space_key (decode fx) = Some b →
  validate decode self fx a n = Ok (blk_validate b (a + 1) n).
Proof. intros Hb. unfold validate, getitem. by rewrite Hb. Qed.

Lemma get_values_bank self fx a n b :
  store self !! space_key (decode fx) = Some b →
  get_values decode self fx a n = Ok (blk_get_values b (a + 1) n).
Proof. intros Hb. unfold get_values, getitem. by rewrite Hb. Qed.

Lemma set_values_bank self fx a v b :
  store self !! space_key (decode fx) = Some b →
  set_values decode self fx a v =
  Ok {| store := <[space_key (decode fx) := blk_set_values b (a + 1) v]>
                   (store self) |}.
Proof. intros Hb. unfold set_values, getitem. by rewrite Hb. Qed.

(** C1: [validate(fx, a, n)] adds one to the address and returns what the
    bank selected by [decode fx] answers to [validate(a + 1, n)]; the
    answer is true iff every offset of [a + 1, a + 1 + n) is populated
    in that bank (address 0 with count 1 checks offset 1), and the call
    returns a boolean, it does not raise. *)
Theorem validate_shifts_then_delegates self fx a n :
  well_formed self →
  ∃ b, store self !! space_key (decode fx) = Some b ∧
       validate decode self fx a n = Ok (blk_validate b (a + 1) n) ∧
       (validate decode self fx a n = Ok true ↔
        ∀ o, a + 1 ≤ o < a + 1 + n → populated b o) ∧
       (validate decode self fx 0 1 = Ok true ↔ populated b 1) ∧
       ¬ raises (validate decode self fx a n).
Proof.
  intros Hwf.
  destruct (well_formed_lookup self (decode fx) Hwf) as [b Hb].
  exists b. rewrite !(validate_bank _ _ _ _ b Hb).
  split; [done|]. split; [done|]. split; [|split; [|simpl; tauto]].
  - rewrite <- validate_populated. split; [by intros [= ->]|by intros ->].
  - replace (0 + 1) with 1 by lia.
    transitivity (blk_validate b 1 1 = true).
    { split; [by intros [= ->]|by intros ->]. }
    rewrite validate_populated. split.
    + intros Hall. apply Hall. lia.
    + intros Hpop o Ho. by replace o with 1 by lia.
Qed.

(** C3: when [a + 1, a + 1 + n) is populated in the bank selected by
    [decode fx] and [v] has [n] values, [set_values(fx, a, v)] followed
    by [get_values(fx, a, n)] returns [v]. *)
Theorem get_values_after_set_values self fx a n v b :
  store self !! space_key (decode fx) = Some b →
  Z.of_nat (length v) = n →
  (∀ o, a + 1 ≤ o < a + 1 + n → populated b o) →
  ∃ self', set_values decode self fx a v = Ok self' ∧
           get_values decode self' fx a n = Ok v.
Proof.
  intros Hb <- Hpop. eexists. split; [by apply set_values_bank|].
  erewrite get_values_bank by (simpl; apply lookup_insert_eq).
  f_equal. by apply get_set_values.
Qed.

End Facts.
End SlaveContextFacts.

(** * ModbusServerContext: single and multi mode *)

Module ServerContextFacts.
Import ModbusServerContext.
Section Facts.
Context {C : Type}.
Variable UnitId : Z.
Implicit Types (self : t C) (slave : Z) (context slaves e : pyobj C)
  (d : gmap Z (pyobj C)) (ops : list (op C)).

Lemma unit_range_test slave :
  (0xf7 >=? slave) && (slave >=? 0x00) = true ↔ 0x00 ≤ slave ≤ 0xf7.
Proof. rewrite andb_true_iff, !Z.geb_le. tauto. Qed.

Lemma unit_range_test_false slave :
  (0xf7 >=? slave) && (slave >=? 0x00) = false ↔ ¬ (0x00 ≤ slave ≤ 0xf7).
Proof. rewrite <- unit_range_test. destruct (_ && _); intuition congruence. Qed.

Lemma py_or_dict d : py_or (PyDict d) (PyDict ∅) = PyDict d.
Proof.
  unfold py_or, truthy. case_bool_decide as Hdom; simpl; [|done].
  apply dom_empty_iff_L in Hdom. by rewrite Hdom.
Qed.

Lemma init_single_entry slaves :
  single_entry UnitId (__init__ UnitId slaves true) (py_or slaves (PyDict ∅)).
Proof. done. Qed.

Lemma setitem_single self e slave context :
  single_entry UnitId self e → 0x00 ≤ UnitId ≤ 0xf7 →
  __setitem__ UnitId self slave context =
  Ok {| single := true; __slaves := PyDict {[UnitId := context]} |}.
Proof.
  intros [Hs Hd] Hid. unfold __setitem__. rewrite Hs, Hd.
  apply unit_range_test in Hid. rewrite Hid. simpl.
  by rewrite insert_singleton_eq.
Qed.

Lemma setitem_single_out_of_range self slave context :
  single self = true → ¬ (0x00 ≤ UnitId ≤ 0xf7) →
  __setitem__ UnitId self slave context =
  Raise (ParameterException "slave index out of range").
Proof.
  intros Hs Hid. unfold __setitem__. rewrite Hs.
  apply unit_range_test_false in Hid. by rewrite Hid.
Qed.

Lemma delitem_single self slave :
  single self = true →
  __delitem__ self slave = Raise (ParameterException "slave index out of range").
Proof. intros Hs. unfold __delitem__. by rewrite Hs. Qed.

Lemma getitem_single self e slave :
  single_entry UnitId self e → __getitem__ UnitId self slave = Ok e.
Proof.
  intros [Hs Hd]. unfold __getitem__. rewrite Hs, Hd. simpl.
  rewrite lookup_singleton_eq. by rewrite bool_decide_eq_true_2.
Qed.

(** An operation keeps a single-mode context a one-entry context. *)
Lemma step_single_entry self e o :
  single_entry UnitId self e → ∃ e', single_entry UnitId (step UnitId self o) e'.
Proof.
  intros Hinv. destruct o as [slave context|slave|slave|slave|]; simpl;
    try (by exists e).
  - destruct (decide (0x00 ≤ UnitId ≤ 0xf7)) as [Hid|Hid].
    + rewrite (setitem_single self e) by done. by exists context.
    + rewrite setitem_single_out_of_range by (done || apply Hinv).
      by exists e.
  - rewrite delitem_single by apply Hinv. by exists e.
Qed.

Lemma run_single_entry ops : ∀ self e,
  single_entry UnitId self e → ∃ e', single_entry UnitId (run UnitId self ops) e'.
Proof.
  induction ops as [|o ops IH]; intros self e Hinv; simpl; [by exists e|].
  destruct (step_single_entry self e o Hinv) as [e' Hinv'].
  by apply (IH _ e').
Qed.

Lemma constructed_single_entry slaves ops :
  ∃ e, single_entry UnitId (run UnitId (__init__ UnitId slaves true) ops) e.
Proof. eapply run_single_entry, init_single_entry. Qed.

(** Names the entry [e] of the single-mode state [self] of the goal. *)
Ltac reached_state e H :=
  match goal with
  | self := run _ (__init__ _ ?slaves true) ?ops |- _ =>
      destruct (constructed_single_entry slaves ops) as [e H]; fold self in H
  end.

(** C5: a context constructed with [single=True] holds exactly one
    entry, filed under the default unit id, whatever the keys of the
    supplied dictionary; the supplied dictionary (the empty one when
    none is supplied) is that entry. *)
Theorem init_single_wraps_supplied slaves :
  ∃ e, __slaves (__init__ UnitId slaves true) = PyDict {[UnitId := e]} ∧
       dom ({[UnitId := e]} : gmap Z (pyobj C)) = {[UnitId]} ∧
       size ({[UnitId := e]} : gmap Z (pyobj C)) = 1%nat ∧
       match slaves with
       | PyNone => e = PyDict ∅
       | PyContext _ | PyDict _ => e = slaves
       end.
Proof.
  exists (py_or slaves (PyDict ∅)). split; [done|].
  split; [apply dom_singleton_L|]. split; [apply map_size_singleton|].
  destruct slaves as [|c|d]; [done|done|apply py_or_dict].
Qed.

(** C2: after any sequence of operations on a context constructed with
    [single=True] the dictionary holds exactly one entry, under the
    default unit id: [__setitem__] overwrites it whatever unit id the
    caller gives, [__delitem__] fails, and a read leaves the context as
    it is. *)
Theorem single_mode_keeps_one_entry slaves ops :
  let self := run UnitId (__init__ UnitId slaves true) ops in
  single self = true ∧
  (∃ e, __slaves self = PyDict {[UnitId := e]} ∧
        size ({[UnitId := e]} : gmap Z (pyobj C)) = 1%nat) ∧
  (0x00 ≤ UnitId ≤ 0xf7 → ∀ slave context,
     __setitem__ UnitId self slave context =
     Ok {| single := true; __slaves := PyDict {[UnitId := context]} |}) ∧
  (∀ slave, __delitem__ self slave =
            Raise (ParameterException "slave index out of range")) ∧
  (∀ slave, step UnitId self (GetItem slave) = self ∧
            step UnitId self (Contains slave) = self ∧
            step UnitId self (DelItem slave) = self) ∧
  step UnitId self Iter = self.
Proof.
  intros self. reached_state e Hinv. split; [apply Hinv|]. split.
  { exists e. split; [apply Hinv|apply map_size_singleton]. }
  split. { intros Hid slave context. by apply (setitem_single self e). }
  split. { intros slave. apply delitem_single, Hinv. }
  split; [|done]. intros slave. repeat split; simpl.
  by rewrite delitem_single by apply Hinv.
Qed.

(** C6: in single mode [__getitem__] returns the one stored entry for
    unit id 5, 0, 247 and any other, and [__setitem__] under any unit id
    overwrites that entry. *)
Theorem single_mode_every_unit_id_same_entry slaves ops :
  let self := run UnitId (__init__ UnitId slaves true) ops in
  ∃ e, __slaves self = PyDict {[UnitId := e]} ∧
       __getitem__ UnitId self 5 = Ok e ∧
       __getitem__ UnitId self 0 = Ok e ∧
       __getitem__ UnitId self 0xf7 = Ok e ∧
       (∀ slave, __getitem__ UnitId self slave = Ok e) ∧
       (0x00 ≤ UnitId ≤ 0xf7 → ∀ slave context,
          ∃ self', __setitem__ UnitId self slave context = Ok self' ∧
                   __slaves self' = PyDict {[UnitId := context]} ∧
                   ∀ slave', __getitem__ UnitId self' slave' = Ok context).
Proof.
  intros self. reached_state e Hinv. exists e. split; [apply Hinv|].
  repeat (split; [by apply getitem_single|]).
  split; [intros slave; by apply getitem_single|].
  intros Hid slave context. eexists.
  split; [by apply (setitem_single self e)|]. split; [done|].
  intros slave'. by apply getitem_single.
Qed.

(** C9: in single mode, with a default unit id inside [0x00, 0xF7],
    [__setitem__] raises for no unit id, in range or not: the key is the
    default unit id by the time the range is tested, and the entry under
    it is the one overwritten. *)
Theorem single_mode_setitem_never_raises slaves ops slave context :
  0x00 ≤ UnitId ≤ 0xf7 →
  let self := run UnitId (__init__ UnitId slaves true) ops in
  ¬ raises (__setitem__ UnitId self slave context) ∧
  __setitem__ UnitId self slave context =
  Ok {| single := true; __slaves := PyDict {[UnitId := context]} |}.
Proof.
  intros Hid self. reached_state e Hinv. rewrite (setitem_single self e) by done.
  split; [simpl; tauto|done].
Qed.

(** C10: on a context constructed with [single=True], [__getitem__]
    raises for no unit id after any sequence of operations. *)
Theorem single_mode_getitem_never_raises slaves ops slave :
  let self := run UnitId (__init__ UnitId slaves true) ops in
  ¬ raises (__getitem__ UnitId self slave).
Proof.
  intros self. reached_state e Hinv. rewrite (getitem_single self e) by done.
  simpl; tauto.
Qed.

(** C4: in multi mode [__setitem__(slave, context)] inserts or replaces
    the entry of [slave] iff [0x00 <= slave <= 0xF7] (0xF7 succeeds, 0xF8
    raises the out-of-range error), and the dictionary is unchanged when
    it raises. *)
Theorem multi_mode_setitem_range d slave context :
  let self := {| single := false; __slaves := PyDict d |} in
  (0x00 ≤ slave ≤ 0xf7 →
     __setitem__ UnitId self slave context =
     Ok {| single := false; __slaves := PyDict (<[slave := context]> d) |}) ∧
  (¬ (0x00 ≤ slave ≤ 0xf7) →
     __setitem__ UnitId self slave context =
     Raise (ParameterException "slave index out of range") ∧
     step UnitId self (SetItem slave context) = self) ∧
  (raises (__setitem__ UnitId self slave context) ↔ ¬ (0x00 ≤ slave ≤ 0xf7)) ∧
  __setitem__ UnitId self 0xf7 context =
    Ok {| single := false; __slaves := PyDict (<[0xf7 := context]> d) |} ∧
  __setitem__ UnitId self 0xf8 context =
    Raise (ParameterException "slave index out of range").
Proof.
  intros self. unfold __setitem__, step, __setitem__; simpl.
  destruct ((0xf7 >=? slave) && (slave >=? 0x00)) eqn:Hr; simpl.
  - apply unit_range_test in Hr. tauto.
  - apply unit_range_test_false in Hr. tauto.
Qed.

(** C7, amended: [__delitem__(slave)] raises the out-of-range error
    exactly when [slave] is outside [0x00, 0xF7] or the context is in
    single mode. In multi mode an in-range unit id goes to the deletion
    of the dictionary, with no membership test before it: a present id
    is removed, and an id that was never set raises the [KeyError] of
    the dictionary, an error other than the out-of-range one. *)
Theorem delitem_range_error_or_dictionary_deletion self slave :
  (∀ msg, __delitem__ self slave = Raise (ParameterException msg) →
          single self = true ∨ ¬ (0x00 ≤ slave ≤ 0xf7)) ∧
  (single self = true ∨ ¬ (0x00 ≤ slave ≤ 0xf7) →
   __delitem__ self slave = Raise (ParameterException "slave index out of range")) ∧
  (∀ d, single self = false → 0x00 ≤ slave ≤ 0xf7 →
        __slaves self = PyDict d →
        __delitem__ self slave =
        match d !! slave with
        | Some _ => Ok {| single := false; __slaves := PyDict (delete slave d) |}
        | None => Raise KeyError
        end).
Proof.
  unfold __delitem__. destruct (single self) eqn:Hs; simpl.
  { repeat split; try done. intros; by left. }
  destruct ((0xf7 >=? slave) && (slave >=? 0x00)) eqn:Hr; simpl.
  - apply unit_range_test in Hr. repeat split; try done.
    + intros msg Hraise. exfalso.
      destruct (__slaves self) as [| |d]; simpl in Hraise; try done.
      by destruct (d !! slave).
    + intros [|]; [done|tauto].
    + intros d _ _ ->. simpl. by destruct (d !! slave).
  - apply unit_range_test_false in Hr. repeat split; try done.
    intros; by right.
Qed.

(** What [__iter__] returns: the items view of the dictionary, whose
    pairs are the entries held. *)
Lemma iter_method_returns_items_view self d :
  __slaves self = PyDict d →
  __iter__ self = Ok (DictItems d) ∧
  ∀ slave context,
    py_iter (DictItems d) = DictItemIterator (map_to_list d) ∧
    ((slave, context) ∈ map_to_list d ↔ d !! slave = Some context).
Proof.
  intros Hd. unfold __iter__. rewrite Hd. split; [done|].
  intros slave context. split; [done|]. apply elem_of_map_to_list.
Qed.

(** [iter] raises on every context: [TypeError] when [__slaves] is a
    dictionary, [AttributeError] when it has no [items]. *)
Lemma iter_always_raises self : raises (iter self).
Proof.
  unfold iter, __iter__. by destruct (__slaves self) as [| |d].
Qed.

(** C8: iterating a multi-mode context that holds two unit ids raises
    [TypeError]: [__iter__] hands back the items view of the dictionary,
    which is not an iterator. *)
Theorem iter_two_unit_ids_raises context1 context2 :
  let d : gmap Z (pyobj C) := <[2 := context2]> {[1 := context1]} in
  let self := {| single := false; __slaves := PyDict d |} in
  __iter__ self = Ok (DictItems d) ∧
  iter self = Raise TypeError.
Proof. done. Qed.

End Facts.
End ServerContextFacts.

(** * Shared banks: construction, sharing, reset *)

Module SharedBanksFacts.
Import SharedBanks.
Section Facts.
Context {V B : Type} `{!ModbusDataBlock V B}.
Variable decode : Z → space.
#[local] Existing Instance bank_inhabited.
Implicit Types (h : gmap positive B) (self : t) (fx a n : Z) (l : positive)
  (v : list V) (s : space).

Lemma store_of_init_lookup (d c i r : positive) s :
  (<["h" := r]> (<["i" := i]> (<["c" := c]> (<["d" := d]> ∅)))
     : gmap string positive) !! space_key s =
  Some (match s with
        | DiscreteInput => d
        | Coil => c
        | InputRegister => i
        | HoldingRegister => r
        end).
Proof. by destruct s. Qed.

Lemma not_elem_of_dom_insert h l l' (b : B) :
  l ∉ dom (<[l' := b]> h) ↔ l ≠ l' ∧ l ∉ dom h.
Proof.
  rewrite dom_insert_L, not_elem_of_union, not_elem_of_singleton. tauto.
Qed.

Lemma validate_ref h self fx a n l :
  store self !! space_key (decode fx) = Some l →
  validate decode h self fx a n = Ok (blk_validate (h !!! l) (a + 1) n).
Proof. intros Hl. unfold validate, getitem. by rewrite Hl. Qed.

Lemma get_values_ref h self fx a n l :
  store self !! space_key (decode fx) = Some l →
  get_values decode h self fx a n = Ok (blk_get_values (h !!! l) (a + 1) n).
Proof. intros Hl. unfold get_values, getitem. by rewrite Hl. Qed.

Lemma set_values_ref h self fx a v l :
  store self !! space_key (decode fx) = Some l →
  set_values decode h self fx a v =
  Ok (<[l := blk_set_values (h !!! l) (a + 1) v]> h).
Proof. intros Hl. unfold set_values, getitem. by rewrite Hl. Qed.

Lemma init_banks_spec h di co ir hr :
  (∀ s l, kwarg di co ir hr s = Some l → l ∈ dom h) →
  let self := (__init__ h di co ir hr).1 in
  let h' := (__init__ h di co ir hr).2 in
  dom (store self) = {["d"; "c"; "i"; "h"]} ∧
  (∀ l, l ∈ dom h → h' !! l = h !! l) ∧
  ∀ s, ∃ l, store self !! space_key s = Some l ∧
            match kwarg di co ir hr s with
            | Some l0 => l = l0
            | None => (l ∉ dom h) ∧ h' !! l = Some create ∧
                      ∀ s', store self !! space_key s' = Some l → s' = s
            end.
Proof.
  intros Hlive. unfold __init__, kwargs_get, alloc.
  cbv zeta beta iota. cbn [fst snd store].
  set (l1 := fresh (dom h)). set (h1 := <[l1 := create]> h).
  set (l2 := fresh (dom h1)). set (h2 := <[l2 := create]> h1).
  set (l3 := fresh (dom h2)). set (h3 := <[l3 := create]> h2).
  set (l4 := fresh (dom h3)). set (h4 := <[l4 := create]> h3).
  assert (H1 : l1 ∉ dom h) by apply is_fresh.
  assert (H2 : l2 ≠ l1 ∧ l2 ∉ dom h).
  { apply (not_elem_of_dom_insert h l2 l1 create), is_fresh. }
  assert (H3 : l3 ≠ l2 ∧ l3 ≠ l1 ∧ l3 ∉ dom h).
  { pose proof (is_fresh (dom h2)) as Hf. fold l3 in Hf. unfold h2, h1 in Hf.
    apply not_elem_of_dom_insert in Hf as [? Hf].
    by apply not_elem_of_dom_insert in Hf as [? Hf]. }
  assert (H4 : l4 ≠ l3 ∧ l4 ≠ l2 ∧ l4 ≠ l1 ∧ l4 ∉ dom h).
  { pose proof (is_fresh (dom h3)) as Hf. fold l4 in Hf.
    unfold h3, h2, h1 in Hf.
    apply not_elem_of_dom_insert in Hf as [? Hf].
    apply not_elem_of_dom_insert in Hf as [? Hf].
    by apply not_elem_of_dom_insert in Hf as [? Hf]. }
  destruct H2 as [H21 H2], H3 as (H32 & H31 & H3), H4 as (H43 & H42 & H41 & H4).
  assert (Hh4 : ∀ l, h4 !! l =
            if decide (l = l4) then Some create
            else if decide (l = l3) then Some create
            else if decide (l = l2) then Some create
            else if decide (l = l1) then Some create else h !! l).
  { intros l. unfold h4, h3, h2, h1. rewrite !lookup_insert.
    repeat case_decide; congruence. }
  clearbody l1 l2 l3 l4 h4. clear h1 h2 h3.
  split; [by rewrite !dom_insert_L, dom_empty_L, (right_id_L ∅ (∪))|].
  split.
  { intros l Hl. rewrite Hh4. repeat case_decide; congruence. }
  intros s. eexists. split; [apply store_of_init_lookup|].
  pose proof (Hlive DiscreteInput) as Hd. pose proof (Hlive Coil) as Hc.
  pose proof (Hlive InputRegister) as Hi. pose proof (Hlive HoldingRegister) as Hr.
  simpl in Hd, Hc, Hi, Hr. clear Hlive.
  destruct s; simpl.
  - destruct di as [l0|]; simpl; [done|]. split; [done|]. split.
    { rewrite Hh4. repeat case_decide; congruence. }
    intros s'. rewrite store_of_init_lookup. intros [= Heq].
    destruct s'; [done|..]; exfalso.
    + destruct co as [l0|]; simpl in Heq; [|congruence].
      apply H1. rewrite <- Heq. by apply Hc.
    + destruct ir as [l0|]; simpl in Heq; [|congruence].
      apply H1. rewrite <- Heq. by apply Hi.
    + destruct hr as [l0|]; simpl in Heq; [|congruence].
      apply H1. rewrite <- Heq. by apply Hr.
  - destruct co as [l0|]; simpl; [done|]. split; [done|]. split.
    { rewrite Hh4. repeat case_decide; congruence. }
    intros s'. rewrite store_of_init_lookup. intros [= Heq].
    destruct s'; [|done|..]; exfalso.
    + destruct di as [l0|]; simpl in Heq; [|congruence].
      apply H2. rewrite <- Heq. by apply Hd.
    + destruct ir as [l0|]; simpl in Heq; [|congruence].
      apply H2. rewrite <- Heq. by apply Hi.
    + destruct hr as [l0|]; simpl in Heq; [|congruence].
      apply H2. rewrite <- Heq. by apply Hr.
  - destruct ir as [l0|]; simpl; [done|]. split; [done|]. split.
    { rewrite Hh4. repeat case_decide; congruence. }
    intros s'. rewrite store_of_init_lookup. intros [= Heq].
    destruct s'; [| |done|]; exfalso.
    + destruct di as [l0|]; simpl in Heq; [|congruence].
      apply H3. rewrite <- Heq. by apply Hd.
    + destruct co as [l0|]; simpl in Heq; [|congruence].
      apply H3. rewrite <- Heq. by apply Hc.
    + destruct hr as [l0|]; simpl in Heq; [|congruence].
      apply H3. rewrite <- Heq. by apply Hr.
  - destruct hr as [l0|]; simpl; [done|]. split; [done|]. split.
    { rewrite Hh4. repeat case_decide; congruence. }
    intros s'. rewrite store_of_init_lookup. intros [= Heq].
    destruct s'; [| | |done]; exfalso.
    + destruct di as [l0|]; simpl in Heq; [|congruence].
      apply H4. rewrite <- Heq. by apply Hd.
    + destruct co as [l0|]; simpl in Heq; [|congruence].
      apply H4. rewrite <- Heq. by apply Hc.
    + destruct ir as [l0|]; simpl in Heq; [|congruence].
      apply H4. rewrite <- Heq. by apply Hi.
Qed.

(** X1: the constructor files a bank under every one of the four
    letters. A keyword argument is filed as it is, shared or not; a
    default bank is a new object holding [create], filed under its own
    letter only, and the objects that existed are untouched. *)
Theorem init_files_banks h di co ir hr :
  (∀ s l, kwarg di co ir hr s = Some l → l ∈ dom h) →
  let self := (__init__ h di co ir hr).1 in
  let h' := (__init__ h di co ir hr).2 in
  dom (store self) = {["d"; "c"; "i"; "h"]} ∧
  (∀ l, l ∈ dom h → h' !! l = h !! l) ∧
  ∀ s, ∃ l, store self !! space_key s = Some l ∧
            match kwarg di co ir hr s with
            | Some l0 => l = l0
            | None => (l ∉ dom h) ∧ h' !! l = Some create ∧
                      ∀ s', store self !! space_key s' = Some l → s' = s
            end.
Proof. apply init_banks_spec. Qed.

(** X2: on a constructed context no call raises [KeyError], for any
    function code and any later state of the banks: [validate],
    [get_values] and [set_values] reach the bank filed under the letter
    of [decode fx], with the address one higher, and [get_values] and
    [set_values] test no range on the way. *)
Theorem constructed_context_reaches_bank h di co ir hr h2 fx a n v :
  let self := (__init__ h di co ir hr).1 in
  ∃ l, store self !! space_key (decode fx) = Some l ∧
       validate decode h2 self fx a n = Ok (blk_validate (h2 !!! l) (a + 1) n) ∧
       get_values decode h2 self fx a n =
         Ok (blk_get_values (h2 !!! l) (a + 1) n) ∧
       set_values decode h2 self fx a v =
         Ok (<[l := blk_set_values (h2 !!! l) (a + 1) v]> h2).
Proof.
  intros self. unfold self, __init__, kwargs_get, alloc.
  cbv zeta beta iota. cbn [fst snd].
  eexists. split; [apply store_of_init_lookup|].
  split; [apply validate_ref, store_of_init_lookup|].
  split; [apply get_values_ref, store_of_init_lookup|].
  apply set_values_ref, store_of_init_lookup.
Qed.

(** X3: a write through one function code is what every function code
    reads whose letter holds the same bank object: another code of the
    same object space, or a code of another space when one bank was
    passed for both. *)
Theorem write_shows_through_shared_bank h self fx fx' a v a' n l :
  store self !! space_key (decode fx) = Some l →
  store self !! space_key (decode fx') = Some l →
  ∃ h', set_values decode h self fx a v = Ok h' ∧
        get_values decode h' self fx' a' n =
          Ok (blk_get_values (blk_set_values (h !!! l) (a + 1) v) (a' + 1) n) ∧
        validate decode h' self fx' a' n =
          Ok (blk_validate (blk_set_values (h !!! l) (a + 1) v) (a' + 1) n).
Proof.
  intros Hl Hl'. eexists. split; [by apply set_values_ref|].
  rewrite (get_values_ref _ _ _ _ _ l), (validate_ref _ _ _ _ _ l) by done.
  by rewrite lookup_total_insert_eq.
Qed.

(** X4: a write through one function code changes nothing that a
    function code reads whose letter holds another bank object. *)
Theorem write_leaves_other_banks h self fx fx' a v a' n l l' :
  store self !! space_key (decode fx) = Some l →
  store self !! space_key (decode fx') = Some l' →
  l ≠ l' →
  ∃ h', set_values decode h self fx a v = Ok h' ∧
        h' !! l' = h !! l' ∧
        get_values decode h' self fx' a' n = get_values decode h self fx' a' n ∧
        validate decode h' self fx' a' n = validate decode h self fx' a' n.
Proof.
  intros Hl Hl' Hne. eexists. split; [by apply set_values_ref|].
  split; [by apply lookup_insert_ne|].
  rewrite !(get_values_ref _ _ _ _ _ l'), !(validate_ref _ _ _ _ _ l') by done.
  by rewrite lookup_total_insert_ne.
Qed.

(** X5: the object space of a default bank is independent of the other
    three: on a context built from live banks, a write through a
    function code of a space that got its default bank leaves the reads
    of every other space as they were, and a write through a function
    code of another space leaves its reads as they were. *)
Theorem default_bank_is_independent h di co ir hr h2 fx fx' a v a' n :
  (∀ s l, kwarg di co ir hr s = Some l → l ∈ dom h) →
  kwarg di co ir hr (decode fx) = None →
  decode fx' ≠ decode fx →
  let self := (__init__ h di co ir hr).1 in
  (∃ h3, set_values decode h2 self fx a v = Ok h3 ∧
         get_values decode h3 self fx' a' n = get_values decode h2 self fx' a' n) ∧
  (∃ h3, set_values decode h2 self fx' a v = Ok h3 ∧
         get_values decode h3 self fx a' n = get_values decode h2 self fx a' n).
Proof.
  intros Hlive Hnone Hne self.
  destruct (init_banks_spec h di co ir hr Hlive) as (_ & _ & Hbanks).
  fold self in Hbanks.
  destruct (Hbanks (decode fx)) as (l & Hl & Hdef). rewrite Hnone in Hdef.
  destruct Hdef as (_ & _ & Hown).
  destruct (Hbanks (decode fx')) as (l' & Hl' & _).
  assert (l ≠ l') as Hll' by (intros ->; by apply Hne, Hown).
  split; eexists; (split; [by apply set_values_ref|]).
  - rewrite !(get_values_ref _ _ _ _ _ l') by done.
    by rewrite lookup_total_insert_ne.
  - rewrite !(get_values_ref _ _ _ _ _ l) by done.
    by rewrite lookup_total_insert_ne.
Qed.

Lemma foldl_reset_bank (ls : list positive) : ∀ h l,
  foldl reset_bank h ls !! l =
  match length (filter (λ l', l' = l) ls) with
  | O => h !! l
  | S c => Some (Nat.iter (S c) blk_reset (h !!! l))
  end.
Proof.
  induction ls as [|l0 ls IH]; intros h l; [done|].
  cbn [foldl]. rewrite IH, filter_cons. unfold reset_bank.
  destruct (decide (l0 = l)) as [->|Hne].
  - cbn [length]. rewrite lookup_insert_eq, lookup_total_insert_eq.
    destruct (length _) as [|c]; [done|]. by rewrite <- Nat.iter_succ_r.
  - by rewrite lookup_insert_ne, lookup_total_insert_ne.
Qed.

Lemma foldl_reset_bank_total (ls : list positive) h l :
  foldl reset_bank h ls !!! l =
  Nat.iter (length (filter (λ l', l' = l) ls)) blk_reset (h !!! l).
Proof.
  rewrite (lookup_total_alt (foldl _ _ _)), foldl_reset_bank.
  destruct (length _); [by rewrite lookup_total_alt|done].
Qed.

Lemma filter_eq_absent (ls : list positive) l :
  length (filter (λ l', l' = l) ls) = 0%nat ↔ l ∉ ls.
Proof.
  induction ls as [|l0 ls IH]; [by split; [intros _ ?%elem_of_nil|]|].
  rewrite filter_cons, not_elem_of_cons.
  destruct (decide (l0 = l)) as [->|Hne]; cbn [length].
  - split; [done|]. by intros [? _].
  - rewrite IH. split; [by split|by intros [_ ?]].
Qed.

Lemma filter_eq_NoDup (ls : list positive) l :
  NoDup ls → l ∈ ls → length (filter (λ l', l' = l) ls) = 1%nat.
Proof.
  induction 1 as [|l0 ls Hnotin Hnd IH]; [by intros ?%elem_of_nil|].
  rewrite filter_cons. intros [<-|Hin]%elem_of_cons.
  - rewrite decide_True by done. cbn [length]. f_equal.
    by apply filter_eq_absent.
  - rewrite decide_False by (intros ->; done). by apply IH.
Qed.

Lemma holders_zero self l :
  holders self l = 0%nat ↔ ∀ k, store self !! k ≠ Some l.
Proof.
  unfold holders. rewrite filter_eq_absent. split.
  - intros Hno k Hk. apply Hno.
    apply list_elem_of_fmap. exists (k, l). split; [done|].
    by apply elem_of_map_to_list.
  - intros Hno [[k l'] [-> Hin]]%list_elem_of_fmap.
    apply elem_of_map_to_list in Hin. by apply (Hno k).
Qed.

Lemma holders_one self k l :
  (∀ k1 k2 l', store self !! k1 = Some l' → store self !! k2 = Some l' → k1 = k2) →
  store self !! k = Some l → holders self l = 1%nat.
Proof.
  intros Hinj Hk. apply filter_eq_NoDup.
  - apply NoDup_fmap_2_strong; [|apply NoDup_map_to_list].
    intros [k1 l1] [k2 l2] Hin1%elem_of_map_to_list Hin2%elem_of_map_to_list.
    simpl. intros ->. f_equal. by apply (Hinj _ _ l2).
  - apply list_elem_of_fmap. exists (k, l). split; [done|].
    by apply elem_of_map_to_list.
Qed.

(** X6: [reset()] resets a bank once for every letter that holds it and
    touches no other object: a bank under one letter is reset once, a
    bank shared by several letters as many times. *)
Theorem reset_once_per_holder h self l :
  reset h self !!! l = Nat.iter (holders self l) blk_reset (h !!! l) ∧
  ((∀ k, store self !! k ≠ Some l) → reset h self !! l = h !! l) ∧
  ((∀ k1 k2 l', store self !! k1 = Some l' → store self !! k2 = Some l' →
                k1 = k2) →
   ∀ k b, store self !! k = Some l → h !! l = Some b →
          reset h self !! l = Some (blk_reset b)).
Proof.
  split; [apply foldl_reset_bank_total|]. split.
  - intros Hno%holders_zero. unfold reset. rewrite foldl_reset_bank.
    unfold holders in Hno. by rewrite Hno.
  - intros Hinj k b Hk Hb. unfold reset. rewrite foldl_reset_bank.
    pose proof (holders_one self k l Hinj Hk) as Hone.
    unfold holders in Hone. rewrite Hone. simpl.
    by rewrite (lookup_total_correct _ _ _ Hb).
Qed.

(** X7: reading through the references is reading the context by
    value: [validate] and [get_values] give what the by-value context
    gives on the snapshot of the banks. *)
Theorem reads_agree_with_snapshot h self fx a n :
  validate decode h self fx a n =
    ModbusSlaveContext.validate decode (snapshot h self) fx a n ∧
  get_values decode h self fx a n =
    ModbusSlaveContext.get_values decode (snapshot h self) fx a n.
Proof.
  unfold validate, get_values, ModbusSlaveContext.validate,
    ModbusSlaveContext.get_values, getitem, snapshot; simpl.
  rewrite lookup_fmap. by destruct (store self !! space_key (decode fx)).
Qed.

(** X8: when no bank is held under two letters, writing and resetting
    through the references is writing and resetting the context by
    value. *)
Theorem writes_agree_with_snapshot h self fx a v :
  (∀ k1 k2 l', store self !! k1 = Some l' → store self !! k2 = Some l' →
               k1 = k2) →
  snapshot (reset h self) self = ModbusSlaveContext.reset (snapshot h self) ∧
  match set_values decode h self fx a v with
  | Ok h' =>
      ModbusSlaveContext.set_values decode (snapshot h self) fx a v =
      Ok (snapshot h' self)
  | Raise e =>
      ModbusSlaveContext.set_values decode (snapshot h self) fx a v = Raise e
  end.
Proof.
  intros Hinj. split.
  - unfold snapshot, ModbusSlaveContext.reset; simpl. f_equal.
    apply map_eq. intros k. rewrite !lookup_fmap.
    destruct (store self !! k) as [l|] eqn:Hk; [simpl|done]. f_equal.
    unfold reset. rewrite foldl_reset_bank_total.
    fold (holders self l). by rewrite (holders_one self k l).
  - unfold set_values, ModbusSlaveContext.set_values, getitem, snapshot; simpl.
    rewrite lookup_fmap.
    destruct (store self !! space_key (decode fx)) as [l|] eqn:Hl; [simpl|done].
    do 2 f_equal. apply map_eq. intros k. rewrite lookup_fmap.
    destruct (decide (k = space_key (decode fx))) as [->|Hne].
    + by rewrite lookup_insert_eq, Hl; simpl; rewrite lookup_total_insert_eq.
    + rewrite lookup_insert_ne, lookup_fmap by done.
      destruct (store self !! k) as [l'|] eqn:Hk; [simpl|done]. f_equal.
      symmetry. apply lookup_total_insert_ne. intros ->. by apply Hne, (Hinj _ _ l').
Qed.

(** A context built with no keyword argument holds four banks, each
    under one letter. *)
Lemma default_context_unshared h k1 k2 l :
  let self := (__init__ h None None None None).1 in
  store self !! k1 = Some l → store self !! k2 = Some l → k1 = k2.
Proof.
  intros self Hk1 Hk2.
  destruct (init_banks_spec h None None None None) as (Hdom & _ & Hbanks);
    [by intros []|].
  fold self in Hdom, Hbanks.
  assert (Hkey : ∀ k, is_Some (store self !! k) → ∃ s, k = space_key s).
  { intros k Hk%elem_of_dom. rewrite Hdom in Hk.
    rewrite !elem_of_union, !elem_of_singleton in Hk.
    destruct Hk as [[[->| ->]| ->]| ->];
      [by exists DiscreteInput|by exists Coil|by exists InputRegister
      |by exists HoldingRegister]. }
  destruct (Hkey k1) as [s1 ->]; [by eexists|].
  destruct (Hkey k2) as [s2 ->]; [by eexists|].
  destruct (Hbanks s1) as (l1 & Hl1 & Hown). rewrite Hk1 in Hl1.
  injection Hl1 as <-. assert (s2 = s1) as ->; [|done].
  destruct s1; simpl in Hown; by apply Hown.
Qed.

End Facts.
End SharedBanksFacts.

(** * ModbusServerContext: lookups, updates and histories *)

Module ServerContextUse.
Import ModbusServerContext.
Section Use.
Context {C : Type}.
Variable UnitId : Z.
Implicit Types (self : t C) (slave k : Z) (context slaves e : pyobj C)
  (d : gmap Z (pyobj C)) (ops : list (op C)).

Lemma setitem_multi d slave context :
  __setitem__ UnitId (multi_context d) slave context =
  if (0xf7 >=? slave) && (slave >=? 0x00)
  then Ok (multi_context (<[slave := context]> d))
  else Raise (ParameterException "slave index out of range").
Proof. unfold __setitem__; simpl. by destruct (_ && _). Qed.

Lemma delitem_multi d slave :
  __delitem__ (multi_context d) slave =
  if (0xf7 >=? slave) && (slave >=? 0x00)
  then match d !! slave with
       | Some _ => Ok (multi_context (delete slave d))
       | None => Raise KeyError
       end
  else Raise (ParameterException "slave index out of range").
Proof.
  unfold __delitem__; simpl. destruct (_ && _); [|done].
  by destruct (d !! slave).
Qed.

Lemma getitem_multi d slave :
  __getitem__ UnitId (multi_context d) slave =
  match d !! slave with
  | Some context => Ok context
  | None => Raise (ParameterException "slave does not exist, or is out of range")
  end.
Proof.
  unfold __getitem__, multi_context, py_contains, py_get; simpl.
  destruct (d !! slave) as [context|] eqn:Hd.
  - by rewrite bool_decide_eq_true_2 by eauto.
  - rewrite bool_decide_eq_false_2; [done|]. by intros [? ?].
Qed.

Lemma contains_multi d slave :
  __contains__ (multi_context d) slave = Ok (bool_decide (is_Some (d !! slave))).
Proof. done. Qed.

(** One operation on a multi_context-mode context: the dictionary it leaves. *)
Lemma step_multi d o :
  ∃ d', step UnitId (multi_context d) o = multi_context d' ∧
        ∀ k, d' !! k = d !! k ∨
             (0x00 ≤ k ≤ 0xf7 ∧
              match o with
              | SetItem slave context => k = slave ∧ d' !! k = Some context
              | DelItem slave => k = slave ∧ d' !! k = None
              | _ => False
              end).
Proof.
  destruct o as [slave context|slave|slave|slave|]; simpl;
    try (exists d; split; [done|by left]).
  - rewrite setitem_multi.
    destruct ((0xf7 >=? slave) && (slave >=? 0x00)) eqn:Hr.
    + apply ServerContextFacts.unit_range_test in Hr.
      exists (<[slave := context]> d). split; [done|]. intros k.
      destruct (decide (k = slave)) as [->|Hne].
      * right. by rewrite lookup_insert_eq.
      * left. by rewrite lookup_insert_ne.
    + exists d. split; [done|by left].
  - rewrite delitem_multi.
    destruct ((0xf7 >=? slave) && (slave >=? 0x00)) eqn:Hr.
    + apply ServerContextFacts.unit_range_test in Hr.
      destruct (d !! slave) eqn:Hd.
      * exists (delete slave d). split; [done|]. intros k.
        destruct (decide (k = slave)) as [->|Hne].
        -- right. by rewrite lookup_delete_eq.
        -- left. by rewrite lookup_delete_ne.
      * exists d. split; [done|by left].
    + exists d. split; [done|by left].
Qed.

(** X9: in multi_context mode the mode flag never changes and the dictionary
    stays a dictionary whose keys, when they start inside [0x00, 0xF7],
    stay inside it under any sequence of operations. *)
Theorem multi_mode_keys_stay_in_range ops : ∀ d,
  (∀ k, is_Some (d !! k) → 0x00 ≤ k ≤ 0xf7) →
  ∃ d', run UnitId (multi_context d) ops = multi_context d' ∧
        ∀ k, is_Some (d' !! k) → 0x00 ≤ k ≤ 0xf7.
Proof.
  induction ops as [|o ops IH]; intros d Hd; simpl; [by exists d|].
  destruct (step_multi d o) as (d1 & -> & Hstep). apply IH.
  intros k Hk. destruct (Hstep k) as [Heq|[Hr _]]; [|done].
  apply Hd. by rewrite <- Heq.
Qed.

(** X10: an entry the constructor received under a unit id outside
    [0x00, 0xF7] is out of reach of [__setitem__] and [__delitem__]: no
    sequence of operations changes it, and [__getitem__] goes on
    returning it. *)
Theorem multi_mode_out_of_range_entry_frozen ops : ∀ d k,
  ¬ (0x00 ≤ k ≤ 0xf7) →
  ∃ d', run UnitId (__init__ UnitId (PyDict d) false) ops = multi_context d' ∧
        d' !! k = d !! k ∧
        __getitem__ UnitId (multi_context d') k = __getitem__ UnitId (multi_context d) k.
Proof.
  intros d k Hk. unfold __init__. rewrite ServerContextFacts.py_or_dict.
  fold (multi_context d). revert d.
  induction ops as [|o ops IH]; intros d; simpl; [by exists d|].
  destruct (step_multi d o) as (d1 & -> & Hstep).
  destruct (IH d1) as (d' & Hrun & Hd' & Hget). exists d'.
  split; [done|]. destruct (Hstep k) as [Heq|[Hr _]]; [|done].
  split; [congruence|]. rewrite Hget, !getitem_multi. by rewrite Heq.
Qed.

(** X11: in multi_context mode a context stored under an in-range unit id is the
    one [__getitem__] returns and [__contains__] finds, and every other
    unit id is as before. *)
Theorem multi_mode_setitem_then_getitem d slave context :
  0x00 ≤ slave ≤ 0xf7 →
  ∃ self', __setitem__ UnitId (multi_context d) slave context = Ok self' ∧
           __getitem__ UnitId self' slave = Ok context ∧
           __contains__ self' slave = Ok true ∧
           ∀ slave', slave' ≠ slave →
             __getitem__ UnitId self' slave' = __getitem__ UnitId (multi_context d) slave' ∧
             __contains__ self' slave' = __contains__ (multi_context d) slave'.
Proof.
  intros Hr. apply ServerContextFacts.unit_range_test in Hr.
  exists (multi_context (<[slave := context]> d)).
  rewrite setitem_multi, Hr. split; [done|].
  rewrite getitem_multi, contains_multi, lookup_insert_eq.
  split; [done|]. split; [done|]. intros slave' Hne.
  by rewrite !getitem_multi, !contains_multi, lookup_insert_ne.
Qed.

(** X12: in multi_context mode deleting a present in-range unit id removes it:
    [__contains__] is false, [__getitem__] raises the does-not-exist
    error, a second [__delitem__] raises [KeyError], and every other
    unit id is as before. *)
Theorem multi_mode_delitem_removes d slave context :
  0x00 ≤ slave ≤ 0xf7 → d !! slave = Some context →
  ∃ self', __delitem__ (multi_context d) slave = Ok self' ∧
           __contains__ self' slave = Ok false ∧
           __getitem__ UnitId self' slave =
             Raise (ParameterException "slave does not exist, or is out of range") ∧
           __delitem__ self' slave = Raise KeyError ∧
           ∀ slave', slave' ≠ slave →
             __getitem__ UnitId self' slave' = __getitem__ UnitId (multi_context d) slave'.
Proof.
  intros Hr Hd. apply ServerContextFacts.unit_range_test in Hr.
  exists (multi_context (delete slave d)).
  rewrite !delitem_multi, Hr, Hd, getitem_multi, contains_multi.
  rewrite lookup_delete_eq. split; [done|]. split; [done|].
  split; [done|]. split; [done|]. intros slave' Hne.
  by rewrite !getitem_multi, lookup_delete_ne.
Qed.

(** X13: in multi_context mode, adding a unit id that was absent and deleting it
    gives the context back as it was. *)
Theorem multi_mode_setitem_then_delitem d slave context :
  0x00 ≤ slave ≤ 0xf7 → d !! slave = None →
  (self' ← __setitem__ UnitId (multi_context d) slave context;
   __delitem__ self' slave) = Ok (multi_context d).
Proof.
  intros Hr Hd. apply ServerContextFacts.unit_range_test in Hr.
  rewrite setitem_multi, Hr. simpl. rewrite delitem_multi, Hr.
  rewrite lookup_insert_eq, delete_insert_eq. by rewrite delete_id.
Qed.

(** X14: in multi_context mode [__getitem__] returns a context exactly for the
    unit ids [__contains__] finds, and what it returns is the stored
    context; it raises the does-not-exist error for every other id. *)
Theorem multi_mode_getitem_iff_contains d slave :
  (__contains__ (multi_context d) slave = Ok true ↔
   ¬ raises (__getitem__ UnitId (multi_context d) slave)) ∧
  (∀ context, __getitem__ UnitId (multi_context d) slave = Ok context ↔
              d !! slave = Some context) ∧
  (__contains__ (multi_context d) slave = Ok false ↔
   __getitem__ UnitId (multi_context d) slave =
   Raise (ParameterException "slave does not exist, or is out of range")).
Proof.
  rewrite getitem_multi, contains_multi.
  destruct (d !! slave) as [context|] eqn:Hd.
  - rewrite bool_decide_eq_true_2 by eauto. simpl.
    split; [tauto|]. split; [|split; intros [=]].
    intros context'. split; congruence.
  - rewrite bool_decide_eq_false_2 by (by intros [? ?]). simpl.
    split; [split; [intros [=]|tauto]|]. split; [|done].
    intros context'. split; intros [=].
Qed.


Lemma step_single_last self e o :
  0x00 ≤ UnitId ≤ 0xf7 → single_entry UnitId self e →
  single_entry UnitId (step UnitId self o) (last_context e [o]).
Proof.
  intros Hid Hinv. destruct o as [slave context|slave|slave|slave|]; simpl;
    try done.
  - by rewrite (ServerContextFacts.setitem_single UnitId self e).
  - by rewrite ServerContextFacts.delitem_single by apply Hinv.
Qed.

(** X16: in single mode, with a default unit id inside [0x00, 0xF7], the
    one entry is the context of the last [__setitem__], whatever unit
    ids the calls named, and the constructor's argument when there was
    none. *)
Theorem single_mode_last_setitem_wins slaves ops slave :
  0x00 ≤ UnitId ≤ 0xf7 →
  let self := run UnitId (__init__ UnitId slaves true) ops in
  __getitem__ UnitId self slave =
  Ok (last_context (py_or slaves (PyDict ∅)) ops).
Proof.
  intros Hid self. apply ServerContextFacts.getitem_single. subst self.
  generalize (ServerContextFacts.init_single_entry UnitId slaves).
  generalize (__init__ UnitId slaves true) (py_or slaves (PyDict ∅)).
  induction ops as [|o ops IH]; intros self e Hinv; [done|].
  simpl. apply (IH _ (last_context e [o])). by apply step_single_last.
Qed.

(** X17: a constructor argument that is [None] or an empty dictionary
    gives, in multi_context mode, a context with no unit id at all and, in
    single mode, a context whose one entry is the empty dictionary. *)
Theorem init_without_slaves slaves slave :
  truthy slaves = false →
  __init__ UnitId slaves false = multi_context ∅ ∧
  __getitem__ UnitId (__init__ UnitId slaves false) slave =
    Raise (ParameterException "slave does not exist, or is out of range") ∧
  __contains__ (__init__ UnitId slaves false) slave = Ok false ∧
  __getitem__ UnitId (__init__ UnitId slaves true) slave = Ok (PyDict ∅).
Proof.
  intros Hf. unfold __init__, py_or. rewrite Hf. fold (multi_context (C := C) ∅).
  rewrite getitem_multi, contains_multi, lookup_empty.
  split; [done|]. split; [done|]. split; [done|].
  by apply ServerContextFacts.getitem_single.
Qed.

(** X18: the view [__iter__] returns, iterated, gives every (unit id,
    context) pair of the dictionary once, no unit id twice, and nothing
    else, in either mode. *)
Theorem items_view_pairs (mode : bool) d :
  let self := {| single := mode; __slaves := PyDict d |} in
  ∃ pairs, (view ← __iter__ self; Ok (py_iter view)) =
             Ok (DictItemIterator pairs) ∧
           NoDup pairs.*1 ∧
           length pairs = size d ∧
           ∀ k context, (k, context) ∈ pairs ↔ d !! k = Some context.
Proof.
  exists (map_to_list d). split; [done|].
  split; [apply NoDup_fst_map_to_list|].
  split; [apply length_map_to_list|].
  intros k context. apply elem_of_map_to_list.
Qed.

End Use.
End ServerContextUse.

(** * Worked examples *)

Module Examples.
Import ModbusSlaveContext ModbusServerContext.

(** Request address 0 is offset 1 of the bank; the last register of an
    eight-register bank is request address 6. *)
Example validate_first_register :
  validate example_decode example_slave 3 0 1 = Ok true.
Proof. reflexivity. Qed.

Example validate_last_register :
  validate example_decode example_slave 3 6 1 = Ok true ∧
  validate example_decode example_slave 3 7 1 = Ok false ∧
  validate example_decode example_slave 3 0 8 = Ok false.
Proof. done. Qed.

Example write_then_read_holding_registers :
  (self ← set_values example_decode example_slave 16 2 [10; 20];
   get_values example_decode self 3 2 2) = Ok [10; 20].
Proof. reflexivity. Qed.

(** A write to the holding registers leaves the coils alone. *)
Example write_holding_read_coils :
  (self ← set_values example_decode example_slave 16 2 [10; 20];
   get_values example_decode self 1 2 2) = Ok [0; 0].
Proof. reflexivity. Qed.

Example multi_mode_delete_absent :
  __delitem__ (__init__ 0 (PyDict {[3 := PyContext ()]}) false) 4 =
  Raise KeyError.
Proof. reflexivity. Qed.

Example multi_mode_get_absent :
  __getitem__ 0 (__init__ 0 (PyDict {[3 := PyContext ()]}) false) 4 =
  Raise (ParameterException "slave does not exist, or is out of range").
Proof. reflexivity. Qed.

Lemma validate_shifts_then_delegates_witness :
  well_formed example_slave ∧
  ∃ b, store example_slave !! space_key (example_decode 3) = Some b ∧
       validate example_decode example_slave 3 0 1 =
         Ok (blk_validate b (0 + 1) 1) ∧
       (validate example_decode example_slave 3 0 1 = Ok true ↔
        ∀ o, 0 + 1 ≤ o < 0 + 1 + 1 → populated b o) ∧
       (validate example_decode example_slave 3 0 1 = Ok true ↔
        populated b 1) ∧
       ¬ raises (validate example_decode example_slave 3 0 1).
Proof.
  split; [vm_compute; reflexivity|].
  apply (SlaveContextFacts.validate_shifts_then_delegates
           example_decode example_slave 3 0 1).
  vm_compute; reflexivity.
Defined.

Lemma get_values_after_set_values_witness :
  ∃ self, set_values example_decode example_slave 16 2 [10; 20] = Ok self ∧
          get_values example_decode self 16 2 2 = Ok [10; 20].
Proof.
  apply (SlaveContextFacts.get_values_after_set_values
           example_decode example_slave 16 2 2 [10; 20] create).
  - reflexivity.
  - reflexivity.
  - intros o Ho. apply SequentialBlockFacts.in_range_spec. simpl. lia.
Defined.

Lemma single_mode_setitem_never_raises_witness :
  let self := run 0 (__init__ 0 (PyContext ()) true)
                [SetItem 5 PyNone; DelItem 0; GetItem 7] in
  ¬ raises (__setitem__ 0 self 0xf8 (PyContext ())) ∧
  __setitem__ 0 self 0xf8 (PyContext ()) =
  Ok {| single := true; __slaves := PyDict {[0 := PyContext ()]} |}.
Proof.
  apply (ServerContextFacts.single_mode_setitem_never_raises 0
           (PyContext ()) [SetItem 5 PyNone; DelItem 0; GetItem 7]
           0xf8 (PyContext ())).
  lia.
Defined.

Lemma single_mode_keeps_one_entry_witness :
  let self := run 0 (__init__ 0 (PyDict {[3 := PyContext (); 9 := PyNone]}) true)
                [SetItem 0xf8 PyNone; DelItem 0; Contains 3; Iter] in
  (∃ e, __slaves self = PyDict {[0 := e]}) ∧
  __setitem__ 0 self 200 (PyContext ()) =
  Ok {| single := true; __slaves := PyDict {[0 := PyContext ()]} |}.
Proof.
  intros self.
  destruct (ServerContextFacts.single_mode_keeps_one_entry 0
              (PyDict {[3 := PyContext (); 9 := PyNone]})
              [SetItem 0xf8 PyNone; DelItem 0; Contains 3; Iter])
    as (_ & (e & He & _) & Hset & _).
  split; [by exists e|]. apply Hset. lia.
Defined.

Lemma single_mode_every_unit_id_same_entry_witness :
  let self := run 0 (__init__ 0 (PyContext ()) true) [GetItem 5] in
  ∃ self', __setitem__ 0 self 5 PyNone = Ok self' ∧
           __getitem__ 0 self' 0xf7 = Ok PyNone.
Proof.
  intros self.
  destruct (ServerContextFacts.single_mode_every_unit_id_same_entry 0
              (PyContext ()) [GetItem 5]) as (e & _ & _ & _ & _ & _ & Hset).
  destruct (Hset ltac:(lia) 5 PyNone) as (self' & Hok & _ & Hget).
  exists self'. split; [exact Hok|apply Hget].
Defined.

End Examples.

(** * Further worked examples *)

Module MoreExamples.
Import ModbusServerContext.

(** One bank object passed for the coils and the holding registers: a
    register write is read back as coils. *)
Example shared_bank_write_visible :
  let h : gmap positive (ModbusSequentialDataBlock.t Z) := {[1%positive := create]} in
  let self := (SharedBanks.__init__ h None (Some 1%positive) None
                 (Some 1%positive)).1 in
  (h' ← SharedBanks.set_values example_decode h self 16 2 [10; 20];
   SharedBanks.get_values example_decode h' self 1 0 6) =
  Ok [0; 0; 10; 20; 0; 0].
Proof. vm_compute. reflexivity. Qed.

Lemma multi_mode_keys_stay_in_range_witness :
  ∃ d', run 0 (multi_context {[1 := PyContext ()]})
          [SetItem 300 PyNone; SetItem 7 PyNone; DelItem 1] = multi_context d' ∧
        ∀ k, is_Some (d' !! k) → 0x00 ≤ k ≤ 0xf7.
Proof.
  apply (ServerContextUse.multi_mode_keys_stay_in_range 0
           [SetItem 300 PyNone; SetItem 7 PyNone; DelItem 1]
           {[1 := PyContext ()]}).
  intros k [context [<- _]%lookup_singleton_Some]. lia.
Defined.

Lemma multi_mode_out_of_range_entry_frozen_witness :
  ∃ d', run 0 (__init__ 0 (PyDict {[300 := PyContext ()]}) false)
          [SetItem 300 PyNone; DelItem 300] = multi_context d' ∧
        d' !! 300 = ({[300 := PyContext ()]} : gmap Z (pyobj ())) !! 300 ∧
        __getitem__ 0 (multi_context d') 300 =
        __getitem__ 0 (multi_context {[300 := PyContext ()]}) 300.
Proof.
  apply (ServerContextUse.multi_mode_out_of_range_entry_frozen 0
           [SetItem 300 PyNone; DelItem 300] {[300 := PyContext ()]} 300).
  lia.
Defined.

Lemma multi_mode_setitem_then_getitem_witness :
  ∃ self', __setitem__ 0 (multi_context ∅) 7 (PyContext ()) = Ok self' ∧
           __getitem__ 0 self' 7 = Ok (PyContext ()).
Proof.
  destruct (ServerContextUse.multi_mode_setitem_then_getitem 0 ∅ 7 (PyContext ()))
    as (self' & Hset & Hget & _); [lia|].
  exists self'. split; [exact Hset|exact Hget].
Defined.

Lemma multi_mode_delitem_removes_witness :
  ∃ self', __delitem__ (multi_context {[7 := PyContext ()]}) 7 = Ok self' ∧
           __contains__ self' 7 = Ok false ∧
           __delitem__ self' 7 = Raise KeyError.
Proof.
  destruct (ServerContextUse.multi_mode_delitem_removes 0
              {[7 := PyContext ()]} 7 (PyContext ()))
    as (self' & Hdel & Hin & _ & Hdel' & _); [lia|reflexivity|].
  exists self'. split; [exact Hdel|]. split; [exact Hin|exact Hdel'].
Defined.

Lemma multi_mode_setitem_then_delitem_witness :
  (self' ← __setitem__ 0 (multi_context {[3 := PyContext ()]}) 7 PyNone;
   __delitem__ self' 7) = Ok (multi_context {[3 := PyContext ()]}).
Proof.
  apply (ServerContextUse.multi_mode_setitem_then_delitem 0
           {[3 := PyContext ()]} 7 PyNone); [lia|reflexivity].
Defined.

Lemma single_mode_last_setitem_wins_witness :
  __getitem__ 0
    (run 0 (__init__ 0 PyNone true)
       [SetItem 5 PyNone; DelItem 0; SetItem 0xf8 (PyContext ()); GetItem 1]) 9 =
  Ok (PyContext ()).
Proof.
  apply (ServerContextUse.single_mode_last_setitem_wins 0 PyNone
           [SetItem 5 PyNone; DelItem 0; SetItem 0xf8 (PyContext ()); GetItem 1] 9).
  lia.
Defined.

Lemma init_without_slaves_witness :
  __init__ 0 (PyDict (∅ : gmap Z (pyobj ()))) false = multi_context ∅ ∧
  __getitem__ 0 (__init__ 0 (PyDict (∅ : gmap Z (pyobj ()))) true) 4 =
  Ok (PyDict ∅).
Proof.
  destruct (ServerContextUse.init_without_slaves 0
              (PyDict (∅ : gmap Z (pyobj ()))) 4) as (Hm & _ & _ & Hs);
    [reflexivity|].
  split; [exact Hm|exact Hs].
Defined.

Lemma init_files_banks_witness :
  let h : gmap positive (ModbusSequentialDataBlock.t Z) := {[1%positive := create]} in
  let self := (SharedBanks.__init__ h (Some 1%positive) (Some 1%positive)
                 None None).1 in
  SharedBanks.store self !! "d" = Some 1%positive ∧
  SharedBanks.store self !! "c" = Some 1%positive ∧
  ∃ l, SharedBanks.store self !! "i" = Some l ∧ l ∉ dom h.
Proof.
  intros h self.
  destruct (SharedBanksFacts.init_files_banks h (Some 1%positive)
              (Some 1%positive) None None) as (_ & _ & Hbanks).
  { intros [] l [= <-]; apply elem_of_dom; by eexists. }
  fold self in Hbanks.
  destruct (Hbanks DiscreteInput) as (ld & Hd & Hld).
  destruct (Hbanks Coil) as (lc & Hc & Hlc).
  destruct (Hbanks InputRegister) as (li & Hi & Hfresh & _).
  simpl in Hld, Hlc. subst ld lc.
  split; [exact Hd|]. split; [exact Hc|]. exists li. split; [exact Hi|exact Hfresh].
Defined.

Lemma write_shows_through_shared_bank_witness :
  let h : gmap positive (ModbusSequentialDataBlock.t Z) := {[1%positive := create]} in
  let self := (SharedBanks.__init__ h None (Some 1%positive) None
                 (Some 1%positive)).1 in
  ∃ h', SharedBanks.set_values example_decode h self 16 2 [10; 20] = Ok h' ∧
        SharedBanks.get_values example_decode h' self 1 2 2 = Ok [10; 20].
Proof.
  intros h self.
  destruct (SharedBanksFacts.write_shows_through_shared_bank example_decode
              h self 16 1 2 [10; 20] 2 2 1%positive)
    as (h' & Hset & Hget & _); [reflexivity|reflexivity|].
  exists h'. split; [exact Hset|exact Hget].
Defined.

Lemma write_leaves_other_banks_witness :
  let h : gmap positive (ModbusSequentialDataBlock.t Z) := ∅ in
  let self := (SharedBanks.__init__ h None None None None).1 in
  let h1 := (SharedBanks.__init__ h None None None None).2 in
  ∃ h', SharedBanks.set_values example_decode h1 self 16 2 [10; 20] = Ok h' ∧
        SharedBanks.get_values example_decode h' self 1 2 2 =
        SharedBanks.get_values example_decode h1 self 1 2 2.
Proof.
  intros h self h1.
  destruct (SharedBanksFacts.write_leaves_other_banks example_decode
              h1 self 16 1 2 [10; 20] 2 2 4%positive 2%positive)
    as (h' & Hset & _ & Hget & _); [reflexivity|reflexivity|done|].
  exists h'. split; [exact Hset|exact Hget].
Defined.

Lemma default_bank_is_independent_witness :
  let h : gmap positive (ModbusSequentialDataBlock.t Z) := ∅ in
  let self := (SharedBanks.__init__ h None None None None).1 in
  let h1 := (SharedBanks.__init__ h None None None None).2 in
  ∃ h', SharedBanks.set_values example_decode h1 self 16 2 [10; 20] = Ok h' ∧
        SharedBanks.get_values example_decode h' self 4 2 2 =
        SharedBanks.get_values example_decode h1 self 4 2 2.
Proof.
  intros h self h1.
  destruct (SharedBanksFacts.default_bank_is_independent example_decode
              h None None None None h1 16 4 2 [10; 20] 2 2)
    as [Hwrite _]; [by intros []|reflexivity|done|].
  exact Hwrite.
Defined.

Lemma writes_agree_with_snapshot_witness :
  let h : gmap positive (ModbusSequentialDataBlock.t Z) := ∅ in
  let self := (SharedBanks.__init__ h None None None None).1 in
  let h1 := (SharedBanks.__init__ h None None None None).2 in
  SharedBanks.snapshot (SharedBanks.reset h1 self) self =
  ModbusSlaveContext.reset (SharedBanks.snapshot h1 self).
Proof.
  intros h self h1.
  destruct (SharedBanksFacts.writes_agree_with_snapshot example_decode
              h1 self 16 2 [10; 20]) as [Hreset _].
  { intros k1 k2 l. apply SharedBanksFacts.default_context_unshared. }
  exact Hreset.
Defined.

(** C7 as first stated fails: in the multi-mode context over [{3: c}],
    deleting unit id 4, in range and never set, raises [KeyError], which
    is not the out-of-range error, while deleting unit id 3, in range
    and present, succeeds. The two cases are told apart. *)
Lemma delitem_absent_in_range_raises_key_error :
  __delitem__ (multi_context {[3 := PyContext ()]}) 4 = Raise KeyError ∧
  __delitem__ (multi_context {[3 := PyContext ()]}) 3 = Ok (multi_context ∅) ∧
  (∀ msg, __delitem__ (multi_context {[3 := PyContext ()]}) 4 ≠
          Raise (ParameterException msg)).
Proof. split; [reflexivity|]. split; [reflexivity|]. intros msg [=]. Qed.

End MoreExamples.
